(** * gmap-scraper: the webhook delivery and the Apify fetch of [app.py]

    A shallow embedding of the two functions of [app.py] that carry logic,
    [send_to_webhook] and [scrape_google_maps], and the properties of the
    specification that concern them; then of the script around them (the
    token check, the handler of the search form, the Webhook tab and its
    preview), with further properties of the code.

    The Python code talks to three collaborators: the wall clock
    ([datetime.now]), the webhook endpoint ([requests.post]) and the Apify
    client ([ApifyClient]).  They are oracles of an [environment]; the code
    itself runs in a state-and-exception monad whose state records every
    call that leaves the process, in order. *)

From stdpp Require Import base option list strings gmap pretty.

Open Scope string_scope.
Open Scope list_scope.

(** ** Python values *)

(** The values that occur in the option set, the request document and the
    run object: [None], [bool], [int], [str] and lists of strings. *)
Inductive pyval :=
| PyNone
| PyBool (b : bool)
| PyInt (z : Z)
| PyStr (s : string)
| PyList (l : list string).

(** A [dict] with string keys. *)
Abbreviation dict := (gmap string pyval).

(** [d.get(key, default)] *)
Definition get (d : dict) (key : string) (default : pyval) : pyval :=
  match d !! key with
  | Some v => v
  | None => default
  end.

(** ** Exceptions *)

(** The two [except] clauses of the source tell exceptions apart by class
    only: [requests.exceptions.RequestException] (with its subclasses
    [HTTPError], [ConnectionError], [Timeout], ...) against every other
    [Exception].  An exception carries the text that [str(e)] yields. *)
Inductive exn :=
| RequestException (text : string)
| Exception (text : string).

Definition str (e : exn) : string :=
  match e with
  | RequestException text => text
  | Exception text => text
  end.

Definition is_RequestException (e : exn) : bool :=
  match e with
  | RequestException _ => true
  | Exception _ => false
  end.

(** ** HTTP responses, as [requests] presents them *)

Record response := Response {
  status_code : Z;
  reason : string;
  response_url : string
}.

(** What a POST comes to: a response (of any status), or no response at all
    (connection refused, timeout, ...), which [requests] raises as a
    [RequestException] with the given text. *)
Inductive reply :=
| Responds (r : response)
| NoResponse (cause : string).

(** The text of the [HTTPError] that [Response.raise_for_status] raises, for
    the statuses it raises on; [None] for the others.  This is the body of
    [raise_for_status] in the [requests] library. *)
Definition http_error_msg (r : response) : option string :=
  if bool_decide (400 ≤ status_code r < 500)%Z then
    Some (pretty (status_code r) +:+ " Client Error: " +:+ reason r
            +:+ " for url: " +:+ response_url r)
  else if bool_decide (500 ≤ status_code r < 600)%Z then
    Some (pretty (status_code r) +:+ " Server Error: " +:+ reason r
            +:+ " for url: " +:+ response_url r)
  else None.

Section App.

(** A scraped business.  Neither function looks inside a record, so the
    development is parametric in what a record is. *)
Context {record : Type}.

(** ** Payloads and the request document *)

(** The values of the two payload dicts. *)
Inductive jvalue :=
| JStr (s : string)
| JInt (n : nat)
| JRecord (r : record)
| JRecords (rs : list record).

Abbreviation payload := (gmap string jvalue).

(** ** The outside world *)

Inductive event :=
| Post (url : string) (json : payload) (timeout : N)
| Sleep (milliseconds : N)
| ActorCall (actor : string) (run_input : dict)
| DatasetRead (dataset_id : pyval).

(** The oracles.  The clock and the webhook are indexed by how often they
    were consulted before, so that they may answer each call differently. *)
Record environment := Environment {
  (** [datetime.now().isoformat()], at the k-th reading of the clock *)
  clock : nat → string;
  (** the endpoint's answer to the k-th POST of this process *)
  webhook : nat → string → payload → reply;
  (** [client.actor(actor).call(run_input=...)]: the run object ([None] when
      the client has none to return), or the exception raised *)
  actor_call : string → dict → exn + option dict;
  (** [client.dataset(id).iterate_items()]: the items yielded, and the
      exception that ends the iteration early if there is one *)
  iterate_items : pyval → list record * option exn
}.

Record world := World {
  clock_reads : nat;
  posts_sent : nat;
  trace : list event
}.

Definition boot : world := World 0 0 [].

(** ** The monad: state of the world, and Python exceptions *)

Definition M (A : Type) : Type := world → (exn + A) * world.

#[local] Instance M_ret : MRet M := λ A a w, (inr a, w).

#[local] Instance M_bind : MBind M := λ A B k m w,
  match m w with
  | (inl e, w') => (inl e, w')
  | (inr a, w') => k a w'
  end.

Definition raise {A} (e : exn) : M A := λ w, (inl e, w).

(** [try: body except <class>: handler], the class given as a test on the
    exception; an exception of another class passes through. *)
Definition try_except {A} (body : M A) (catches : exn → bool)
    (handler : exn → M A) : M A := λ w,
  match body w with
  | (inl e, w') => if catches e then handler e w' else (inl e, w')
  | (inr a, w') => (inr a, w')
  end.

Definition emit (ev : event) : M unit := λ w,
  (inr (), World (clock_reads w) (posts_sent w) (trace w ++ [ev])).

Variable env : environment.

(** [datetime.now().isoformat()] *)
Definition now_isoformat : M string := λ w,
  (inr (clock env (clock_reads w)),
   World (S (clock_reads w)) (posts_sent w) (trace w)).

(** [requests.post(url, json=payload, timeout=timeout)] *)
Definition requests_post (url : string) (json : payload) (timeout : N)
    : M response := λ w,
  let w' := World (clock_reads w) (S (posts_sent w))
                  (trace w ++ [Post url json timeout]) in
  match webhook env (posts_sent w) url json with
  | Responds r => (inr r, w')
  | NoResponse cause => (inl (RequestException cause), w')
  end.

(** [response.raise_for_status()] *)
Definition raise_for_status (r : response) : M unit :=
  match http_error_msg r with
  | Some msg => raise (RequestException msg)
  | None => mret ()
  end.

(** [time.sleep(0.1)], in milliseconds. *)
Definition time_sleep (milliseconds : N) : M unit := emit (Sleep milliseconds).

(** ** [send_to_webhook] *)

(** [enumerate(data, start)] *)
Fixpoint enumerate {A} (l : list A) (start : nat) : list (nat * A) :=
  match l with
  | [] => []
  | x :: l' => (start, x) :: enumerate l' (S start)
  end.

Definition individual_payload (timestamp : string) (index total : nat)
    (r : record) : payload :=
  list_to_map [("timestamp", JStr timestamp);
               ("record_number", JInt index);
               ("total_records", JInt total);
               ("data", JRecord r)].

Definition bulk_payload (timestamp : string) (data : list record) : payload :=
  list_to_map [("timestamp", JStr timestamp);
               ("total_results", JInt (length data));
               ("data", JRecords data)].

(** The body of the [for] loop: one record, with the inner [try]. *)
Definition send_record (webhook_url : string) (total : nat)
    (counts : nat * nat) (item : nat * record) : M (nat * nat) :=
  let '(success_count, failed_count) := counts in
  let '(index, r) := item in
  try_except
    (timestamp ← now_isoformat;
     let payload := individual_payload timestamp index total r in
     response ← requests_post webhook_url payload 30;
     raise_for_status response;;
     let success_count := success_count + 1 in
     time_sleep 100;;
     mret (success_count, failed_count))
    is_RequestException
    (λ _, mret (success_count, failed_count + 1)).

(** The [for] loop over [enumerate(data, 1)], threading the two counters. *)
Fixpoint send_records (webhook_url : string) (total : nat)
    (items : list (nat * record)) (counts : nat * nat) : M (nat * nat) :=
  match items with
  | [] => mret counts
  | item :: items' =>
      counts' ← send_record webhook_url total counts item;
      send_records webhook_url total items' counts'
  end.

Definition send_to_webhook (data : list record) (webhook_url : string)
    (send_individually : bool) : M (bool * string) :=
  try_except
    (if send_individually then
       counts ←
         send_records webhook_url (length data) (enumerate data 1) (0, 0);
       let '(success_count, failed_count) := counts in
       if (failed_count =? 0)%nat then
         mret (true, "Successfully sent all " +:+ pretty success_count
                       +:+ " records individually to webhook")
       else
         mret (true, "Sent " +:+ pretty success_count
                       +:+ " records successfully, " +:+ pretty failed_count
                       +:+ " failed")
     else
       timestamp ← now_isoformat;
       let payload := bulk_payload timestamp data in
       response ← requests_post webhook_url payload 30;
       raise_for_status response;;
       mret (true, "Successfully sent " +:+ pretty (length data)
                     +:+ " records in bulk to webhook"))
    is_RequestException
    (λ e, mret (false, "Webhook error: " +:+ str e)).

(** ** [scrape_google_maps] *)

(** The second component of the triple that [scrape_google_maps] returns:
    the list of items on success, [str(e)] on failure. *)
Inductive fetched :=
| Items (results : list record)
| Cause (text : string).

(** The request document, for an option set that is a [dict]. *)
Definition run_input_of (search_query location : string) (max_results : Z)
    (additional_options : dict) : dict :=
  list_to_map [
    ("searchStringsArray", PyList [search_query]);
    ("locationQuery", PyStr location);
    ("maxCrawledPlacesPerSearch", PyInt max_results);
    ("language", PyStr "en");
    ("searchMatching", PyStr "all");
    ("placeMinimumStars", PyStr "");
    ("website", PyStr "allPlaces");
    ("skipClosedPlaces", get additional_options "skipClosedPlaces" (PyBool false));
    ("scrapePlaceDetailPage", get additional_options "scrapePlaceDetailPage" (PyBool false));
    ("scrapeTableReservationProvider", PyBool false);
    ("includeWebResults", get additional_options "includeWebResults" (PyBool false));
    ("scrapeDirectories", PyBool false);
    ("maxQuestions", PyInt 0);
    ("scrapeContacts", get additional_options "scrapeContacts" (PyBool false));
    ("maximumLeadsEnrichmentRecords", get additional_options "maximumLeadsEnrichmentRecords" (PyInt 0));
    ("maxReviews", get additional_options "maxReviews" (PyInt 0));
    ("reviewsSort", PyStr "newest");
    ("reviewsFilterString", PyStr "");
    ("reviewsOrigin", PyStr "all");
    ("scrapeReviewsPersonalData", PyBool true);
    ("maxImages", get additional_options "maxImages" (PyInt 0));
    ("scrapeImageAuthors", PyBool false);
    ("allPlacesNoSearchAction", PyStr "")
  ].

(** The dict display of the source.  [additional_options] defaults to
    [None], on which the first [.get] raises [AttributeError]. *)
Definition build_run_input (search_query location : string) (max_results : Z)
    (additional_options : option dict) : M dict :=
  match additional_options with
  | Some options => mret (run_input_of search_query location max_results options)
  | None => raise (Exception "'NoneType' object has no attribute 'get'")
  end.

(** [client.actor(actor).call(run_input=run_input)] *)
Definition client_actor_call (actor : string) (run_input : dict)
    : M (option dict) :=
  emit (ActorCall actor run_input);;
  match actor_call env actor run_input with
  | inl e => raise e
  | inr run => mret run
  end.

(** [run[key]]: [TypeError] on [None], [KeyError] on a missing key. *)
Definition subscript (run : option dict) (key : string) : M pyval :=
  match run with
  | None => raise (Exception "'NoneType' object is not subscriptable")
  | Some d =>
      match d !! key with
      | Some v => mret v
      | None => raise (Exception ("'" +:+ key +:+ "'"))
      end
  end.

(** [for item in <iterator>: results.append(item)], the iterator given by
    the items it yields and the exception it ends with, if any. *)
Fixpoint append_items (items : list record) (failure : option exn)
    (results : list record) : M (list record) :=
  match items with
  | [] =>
      match failure with
      | Some e => raise e
      | None => mret results
      end
  | item :: items' => append_items items' failure (results ++ [item])
  end.

(** The function.  [client = ApifyClient(API_TOKEN)] only builds the client
    object: it has no effect of its own and is left out; the client's two
    calls are the oracles of the environment. *)
Definition scrape_google_maps (search_query location : string)
    (max_results : Z) (additional_options : option dict)
    : M (bool * fetched * option dict) :=
  try_except
    (run_input ← build_run_input search_query location max_results
                   additional_options;
     run ← client_actor_call "compass/crawler-google-places" run_input;
     let results := [] in
     dataset_id ← subscript run "defaultDatasetId";
     emit (DatasetRead dataset_id);;
     let '(items, failure) := iterate_items env dataset_id in
     results ← append_items items failure results;
     mret (true, Items results, run))
    (λ _, true)
    (λ e, mret (false, Cause (str e), None)).

End App.

(** * The page around the two functions

    The script of [app.py] outside the two functions: the check of the API
    token, the handler of the search form and the "Webhook" tab.  Streamlit
    is the collaborator here: the values of the widgets are inputs, the
    session state is passed in and out, and the calls that draw something
    ([st.error], [st.toast], ...) are returned as a list, in order. *)

(** What the script asks Streamlit to show. *)
Inductive ui :=
| StError (text : string)
| StSuccess (text : string)
| StInfo (text : string)
| StWrite (text : string)
| StToast (text icon : string)
| StStatus (label : string)
| StatusUpdate (label state : string)
| StSpinner (text : string)
| SidebarSuccess (text : string).

(** [bool(s)] of a [str]: the empty string is false. *)
Definition nonempty (s : string) : bool :=
  match s with
  | EmptyString => false
  | String _ _ => true
  end.

(** [s * n] *)
Fixpoint str_mul (s : string) (n : nat) : string :=
  match n with
  | 0 => ""
  | S n' => s +:+ str_mul s n'
  end.

(** A Python [str] is held as the bytes of its UTF-8 encoding; a character
    is a byte that is not a continuation byte (one of the form [10xxxxxx])
    with the continuation bytes that follow it. *)
Definition is_continuation (c : Ascii.ascii) : bool :=
  match c with
  | Ascii.Ascii _ _ _ _ _ _ b6 b7 => b7 && negb b6
  end.

(** [len(s)]: the number of characters. *)
Fixpoint len (s : string) : nat :=
  match s with
  | String c s' => (if is_continuation c then 0 else 1) + len s'
  | EmptyString => 0
  end.

Fixpoint drop_continuations (s : string) : string :=
  match s with
  | String c s' => if is_continuation c then drop_continuations s' else s
  | EmptyString => s
  end.

(** [s[n:]] for [n >= 0]: [s] without its first [n] characters. *)
Fixpoint drop_chars (n : nat) (s : string) : string :=
  match n with
  | 0 => s
  | S n' =>
      match drop_continuations s with
      | String _ s' => drop_chars n' (drop_continuations s')
      | EmptyString => ""
      end
  end.

(** [s[-k:]] for [k > 0]: the last [k] characters, all of [s] when it has
    fewer. *)
Definition last_chars (k : nat) (s : string) : string :=
  drop_chars (len s - k) s.

(** The masked token of the sidebar,
    [f"{'*' * 20}{API_TOKEN[-4:] if len(API_TOKEN) > 4 else '****'}"]. *)
Definition masked_token (API_TOKEN : string) : string :=
  str_mul "*" 20
    +:+ (if (4 <? len API_TOKEN)%nat then last_chars 4 API_TOKEN
         else "****").

(** The check of the token at the top of the script ([API_TOKEN] is [None]
    when neither the secrets nor the environment have it): what is shown,
    and whether the script goes on ([st.stop()] ends it). *)
Definition check_api_token (API_TOKEN : option string) : ui * bool :=
  match API_TOKEN with
  | Some token =>
      if nonempty token then
        (SidebarSuccess ("✅ API Token loaded: " +:+ masked_token token), true)
      else
        (StError ("❌ Apify API token not found in environment variables."
                    +:+ " Please add APIFY_API_TOKEN to your .env file."),
         false)
  | None =>
      (StError ("❌ Apify API token not found in environment variables."
                  +:+ " Please add APIFY_API_TOKEN to your .env file."),
       false)
  end.

(** The values of the widgets of the sidebar and of the search form. *)
Record form := Form {
  webhook_url : string;
  skip_closed : bool;
  scrape_details : bool;
  scrape_contacts : bool;
  include_web_results : bool;
  max_reviews : Z;
  max_images : Z;
  max_leads : Z;
  search_query : string;
  location : string;
  max_results : Z;
  submit_button : bool
}.

(** The dict [additional_options] that the handler builds from the form. *)
Definition additional_options_of (f : form) : dict :=
  list_to_map [
    ("skipClosedPlaces", PyBool (skip_closed f));
    ("scrapePlaceDetailPage", PyBool (scrape_details f));
    ("scrapeContacts", PyBool (scrape_contacts f));
    ("includeWebResults", PyBool (include_web_results f));
    ("maxReviews", PyInt (max_reviews f));
    ("maxImages", PyInt (max_images f));
    ("maximumLeadsEnrichmentRecords", PyInt (max_leads f))
  ].

Section Page.

Context {record : Type}.
Variable env : @environment record.

#[local] Existing Instance M_ret.
#[local] Existing Instance M_bind.

(** [st.session_state], with the two keys the script keeps in it. *)
Record session_state := SessionState {
  scraping_results : option (list record);
  scraping_in_progress : bool
}.

(** A session that has just begun: both keys as the script initialises
    them. *)
Definition new_session : session_state := SessionState None false.

(** "Handle form submission".  The triple of [scrape_google_maps] is taken
    apart as the script does, [results] being the list when [success] holds
    and the text when it does not; [scrape_google_maps] returns no other
    pairing, and the embedding stops with an exception of its own on one. *)
Definition handle_submit (f : form) (st : session_state)
    : M (session_state * list ui) :=
  if submit_button f && nonempty (search_query f) && nonempty (location f)
  then
    if negb (scraping_in_progress st) then
      let st := SessionState (scraping_results st) true in
      let st := SessionState None (scraping_in_progress st) in
      let additional_options := additional_options_of f in
      let shown := [StStatus "Scraping in progress...";
                    StWrite "Connecting to Apify..."] in
      fetched ← scrape_google_maps env (search_query f) (location f)
                  (max_results f) (Some additional_options);
      match fetched with
      | (true, Items results, run_info) =>
          let st := SessionState (Some results) (scraping_in_progress st) in
          let shown :=
            shown ++
            [StatusUpdate ("Scraped " +:+ pretty (length results)
                             +:+ " businesses!") "complete";
             StToast ("Found " +:+ pretty (length results)
                        +:+ " businesses!") "🎉"] in
          if nonempty (webhook_url f) then
            sent ← send_to_webhook env results (webhook_url f) false;
            let '(webhook_success, webhook_msg) := sent in
            if webhook_success : bool then
              mret (st, shown ++ [StToast ("📡 " +:+ webhook_msg) "✅"])
            else
              mret (st, shown ++ [StToast ("❌ " +:+ webhook_msg) "⚠️"])
          else mret (st, shown)
      | (false, Cause results, run_info) =>
          let st := SessionState (scraping_results st) false in
          mret (st,
                shown ++
                [StatusUpdate ("❌ Scraping failed: " +:+ results) "error";
                 StToast ("Scraping failed: " +:+ results) "⚠️"])
      | _ => raise (Exception "scrape_google_maps returned another pairing")
      end
    else mret (st, [])
  else if submit_button f then
    mret (st,
          (if negb (nonempty (search_query f))
           then [StError "❌ Please enter a search query"] else [])
          ++ (if negb (nonempty (location f))
              then [StError "❌ Please enter a location"] else []))
  else mret (st, []).

(** Whether the page shows the table and the export tabs:
    [if st.session_state.scraping_results:], true of a list that is not
    empty. *)
Definition results_shown (st : session_state) : bool :=
  match scraping_results st with
  | Some (_ :: _) => true
  | _ => false
  end.


(** The values of the dict of "Preview Payload": as in a payload, and a
    [data] list that may end in the string ["..."], or the empty dict. *)
Inductive preview_value :=
| PvStr (s : string)
| PvInt (n : nat)
| PvRecord (r : record)
| PvEmptyDict
| PvList (items : list (record + string)).

(** [preview_payload], for the reading [timestamp] of the clock. *)
Definition preview_payload (timestamp : string) (results : list record)
    (send_individually : bool) : gmap string preview_value :=
  if negb send_individually then
    list_to_map [
      ("timestamp", PvStr timestamp);
      ("total_results", PvInt (length results));
      ("data", PvList (if (2 <? length results)%nat
                       then (inl <$> take 2 results) ++ [inr "..."]
                       else inl <$> results))
    ]
  else
    list_to_map [
      ("timestamp", PvStr timestamp);
      ("record_number", PvInt 1);
      ("total_records", PvInt (length results));
      ("data", match results with
               | r :: _ => PvRecord r
               | [] => PvEmptyDict
               end)
    ].

(** A value of a payload as a value of the preview. *)
Definition previewed (v : @jvalue record) : preview_value :=
  match v with
  | JStr s => PvStr s
  | JInt n => PvInt n
  | JRecord r => PvRecord r
  | JRecords rs => PvList (inl <$> rs)
  end.

End Page.

(** * Properties *)

(** ** Vocabulary of the statements *)

(** The option keys that [scrape_google_maps] reads, each with the default
    the specification documents for it. *)
Definition documented_defaults : list (string * pyval) :=
  [("skipClosedPlaces", PyBool false);
   ("scrapePlaceDetailPage", PyBool false);
   ("scrapeContacts", PyBool false);
   ("includeWebResults", PyBool false);
   ("maxReviews", PyInt 0);
   ("maxImages", PyInt 0);
   ("maximumLeadsEnrichmentRecords", PyInt 0)].

(** The actor that [scrape_google_maps] calls. *)
Definition crawler : string := "compass/crawler-google-places".

Section Vocabulary.

Context {record : Type}.
Variable env : @environment record.

(** A POST is delivered when the endpoint responds and [raise_for_status]
    lets the response through. *)
Definition delivered (rep : reply) : bool :=
  match rep with
  | Responds r =>
      match http_error_msg r with
      | Some _ => false
      | None => true
      end
  | NoResponse _ => false
  end.

(** The text of the [RequestException] that an undelivered POST ends in. *)
Definition failure_text (rep : reply) : option string :=
  match rep with
  | Responds r => http_error_msg r
  | NoResponse cause => Some cause
  end.

(** The attempts of an individual delivery that starts when the clock was
    read [c] times and [p] POSTs were sent, on records numbered from
    [start]: the payload of each record and whether it is delivered. *)
Definition attempts_from (c p start total : nat) (url : string)
    (l : list record) : list (gmap string (@jvalue record) * bool) :=
  imap (λ j r,
          let payload :=
            individual_payload (clock env (c + j)) (start + j) total r in
          (payload, delivered (webhook env (p + j) url payload))) l.

(** The same for a delivery of [data] by a fresh process. *)
Definition attempts (data : list record) (url : string)
    : list (gmap string (@jvalue record) * bool) :=
  attempts_from 0 0 1 (length data) url data.

(** What one attempt leaves in the trace. *)
Definition attempt_events (url : string)
    (a : gmap string (@jvalue record) * bool) : list (@event record) :=
  Post url a.1 30 :: (if a.2 then [Sleep 100] else []).

(** How many attempts came out as [b]. *)
Definition tally {A} (b : bool) (l : list (A * bool)) : nat :=
  length (filter (λ a, a.2 = b) l).

(** The POSTs of a trace: URL, body and timeout of each, in order. *)
Definition posts (tr : list (@event record))
    : list (string * gmap string (@jvalue record) * N) :=
  omap (λ ev, match ev with
              | Post url json timeout => Some (url, json, timeout)
              | _ => None
              end) tr.

(** The two messages of an individual delivery, as the specification words
    them, for [x] successes and [y] failures. *)
Definition report (x y : nat) : string :=
  match y with
  | 0 => "Successfully sent all " +:+ pretty x
           +:+ " records individually to webhook"
  | S _ => "Sent " +:+ pretty x +:+ " records successfully, " +:+ pretty y
           +:+ " failed"
  end.

(** What the receiver of a bulk payload reads back as the record list. *)
Definition payload_records (p : gmap string (@jvalue record))
    : option (list record) :=
  match p !! "data" with
  | Some (JRecords rs) => Some rs
  | _ => None
  end.

(** No POST of the trace is directly followed by another POST: something
    (in a delivery, a pause) lies between any two consecutive POSTs. *)
Fixpoint posts_are_spaced (tr : list (@event record)) : bool :=
  match tr with
  | [] => true
  | Post _ _ _ :: tr' =>
      match tr' with
      | Post _ _ _ :: _ => false
      | _ => posts_are_spaced tr'
      end
  | _ :: tr' => posts_are_spaced tr'
  end.

End Vocabulary.

(** *** Further vocabulary *)

Section MoreVocabulary.

Context {record : Type}.

(** The time, in milliseconds, that a trace spends in [time.sleep]. *)
Definition pause_total (tr : list (@event record)) : N :=
  foldr (λ ev total, match ev with
                     | Sleep milliseconds => (milliseconds + total)%N
                     | _ => total
                     end) 0%N tr.


(** The search form is complete: it was submitted, with a search query
    and a location that are not empty. *)
Definition complete (f : form) : bool :=
  submit_button f && nonempty (search_query f) && nonempty (location f).

End MoreVocabulary.

(** ** Scenarios *)

(** Concrete collaborators, on which the statements below are tried: three
    businesses, an endpoint, a clock, and an environment made of the replies
    of the endpoint, the answer of the actor and the content of the
    dataset. *)
Definition cafe : dict :=
  {[ "title" := PyStr "Cafe Rumi"; "phone" := PyStr "+971 4 000 0000" ]}.

Definition bakery : dict :=
  {[ "title" := PyStr "Old Town Bakery"; "totalScore" := PyInt 4 ]}.

Definition hotel : dict :=
  {[ "title" := PyStr "Harbour Hotel"; "website" := PyNone ]}.

Definition endpoint : string := "https://hooks.example.org/leads".

Definition scenario (replies : nat → reply) (run : exn + option dict)
    (items : list dict * option exn) : @environment dict :=
  Environment (λ k, "2024-05-01T12:00:0" +:+ pretty k)
              (λ k _ _, replies k) (λ _ _, run) (λ _, items).

Definition ok : reply := Responds (Response 200 "OK" endpoint).


Definition server_error : reply :=
  Responds (Response 500 "Internal Server Error" endpoint).

Definition refused : reply := NoResponse "Connection refused".

Definition finished_run : dict :=
  {[ "defaultDatasetId" := PyStr "dataset-1"; "status" := PyStr "SUCCEEDED" ]}.

(** An endpoint that accepts everything; a run that yields no item. *)
Definition all_fine : @environment dict :=
  scenario (λ _, ok) (inr (Some finished_run)) ([], None).



(** An endpoint that cannot be reached for the first POST only. *)
Definition first_post_refused : @environment dict :=
  scenario (λ k, if (k =? 0)%nat then refused else ok)
           (inr (Some finished_run)) ([], None).

(** An endpoint that answers 500 to the second POST only. *)
Definition second_post_rejected : @environment dict :=
  scenario (λ k, if (k =? 1)%nat then server_error else ok)
           (inr (Some finished_run)) ([], None).

(** A dataset whose iteration breaks after two items. *)
Definition dataset_breaks : @environment dict :=
  scenario (λ _, ok) (inr (Some finished_run))
           ([cafe; bakery], Some (Exception "Dataset read timed out")).

(** A run that ended [FAILED] after it had stored two items: the client
    returns its run object, it does not raise. *)
Definition failed_run : dict :=
  {[ "defaultDatasetId" := PyStr "dataset-1"; "status" := PyStr "FAILED" ]}.

Definition run_failed : @environment dict :=
  scenario (λ _, ok) (inr (Some failed_run)) ([cafe; bakery], None).

(** A run with one item. *)
Definition one_item : @environment dict :=
  scenario (λ _, ok) (inr (Some finished_run)) ([cafe], None).


(** A client whose actor call raises. *)
Definition actor_fails : @environment dict :=
  scenario (λ _, ok) (inl (Exception "User was not found or authentication token is not valid"))
           ([cafe], None).

(** A search form filled in, with a webhook in the sidebar; the same with no
    webhook; the same with no location. *)
Definition cafes_in_dubai : form :=
  Form endpoint false true true false 5 0 10 "cafes" "Dubai" 50 true.

Definition cafes_no_webhook : form :=
  Form "" false true true false 5 0 10 "cafes" "Dubai" 50 true.

Definition cafes_nowhere : form :=
  Form endpoint false true true false 5 0 10 "cafes" "" 50 true.

(** ** The delivery loop *)

Section Delivery.

Context {record : Type}.
Variable env : @environment record.
Implicit Types (data l : list record) (url : string) (w : @world record).

Lemma tally_cons {A} (b : bool) (a : A * bool) (l : list (A * bool)) :
  tally b (a :: l) = (if bool_decide (a.2 = b) then 1 else 0) + tally b l.
Proof.
  unfold tally. rewrite filter_cons.
  destruct (decide (a.2 = b)) as [Heq|Hne].
  - by rewrite bool_decide_eq_true_2.
  - by rewrite bool_decide_eq_false_2.
Qed.

Lemma tally_total {A} (l : list (A * bool)) :
  tally true l + tally false l = length l.
Proof.
  induction l as [|[x []] l IH]; [done|..];
    rewrite !tally_cons; simpl; lia.
Qed.

Lemma attempts_from_cons c p start total url r l :
  attempts_from env c p start total url (r :: l) =
    (let payload := individual_payload (clock env c) start total r in
     (payload, delivered (webhook env p url payload)))
    :: attempts_from env (S c) (S p) (S start) total url l.
Proof.
  unfold attempts_from. rewrite imap_cons. rewrite !Nat.add_0_r.
  f_equal. apply imap_ext. intros j x _. simpl.
  by rewrite !Nat.add_succ_r.
Qed.

(** One turn of the loop: the clock is read, one POST goes out, and either
    the success counter moves and the process sleeps, or the failure
    counter moves and it does not. *)
Lemma send_record_run url total s f index (r : record) w :
  send_record env url total (s, f) (index, r) w =
    let payload := individual_payload (clock env (clock_reads w)) index total r in
    let ok := delivered (webhook env (posts_sent w) url payload) in
    (inr (if ok then (s + 1, f) else (s, f + 1)),
     World (S (clock_reads w)) (S (posts_sent w))
           (trace w ++ attempt_events url (payload, ok))).
Proof.
  unfold send_record, try_except, mbind, M_bind, now_isoformat, requests_post,
    raise_for_status, time_sleep, emit, raise, mret, M_ret, delivered,
    attempt_events.
  simpl.
  destruct (webhook env _ _ _) as [resp|cause]; simpl; [|done].
  destruct (http_error_msg resp); simpl; [done|].
  by rewrite <- app_assoc.
Qed.

Lemma send_records_cons url total item items counts w :
  send_records env url total (item :: items) counts w =
    match send_record env url total counts item w with
    | (inl e, w') => (inl e, w')
    | (inr counts', w') => send_records env url total items counts' w'
    end.
Proof. reflexivity. Qed.

(** The whole loop, from any world and any counters. *)
Lemma send_records_run url total l start s f w :
  send_records env url total (enumerate l start) (s, f) w =
    let done := attempts_from env (clock_reads w) (posts_sent w) start total url l in
    (inr (s + tally true done, f + tally false done),
     World (clock_reads w + length l) (posts_sent w + length l)
           (trace w ++ done ≫= attempt_events url)).
Proof.
  revert start s f w.
  induction l as [|r l IH]; intros start s f w.
  - destruct w. simpl. unfold mret, M_ret, tally. simpl.
    by rewrite !Nat.add_0_r, app_nil_r.
  - simpl enumerate. rewrite send_records_cons, send_record_run. cbv zeta.
    rewrite attempts_from_cons. cbv zeta.
    set (payload := individual_payload _ _ _ _).
    set (ok := delivered _).
    rewrite !tally_cons. simpl length.
    destruct ok; rewrite IH; simpl; cbv zeta;
      rewrite <- !app_assoc, !Nat.add_succ_r; simpl;
      repeat f_equal; lia.
Qed.

Lemma send_records_app url total items1 items2 counts w :
  send_records env url total (items1 ++ items2) counts w =
    match send_records env url total items1 counts w with
    | (inl e, w') => (inl e, w')
    | (inr counts', w') => send_records env url total items2 counts' w'
    end.
Proof.
  revert counts w. induction items1 as [|item items1 IH]; intros counts w.
  - reflexivity.
  - rewrite <- app_comm_cons, !send_records_cons.
    destruct (send_record env url total counts item w) as [[e|counts'] w'];
      [done|apply IH].
Qed.

Lemma enumerate_app {A} (l1 l2 : list A) start :
  enumerate (l1 ++ l2) start =
    enumerate l1 start ++ enumerate l2 (start + length l1).
Proof.
  revert start. induction l1 as [|x l1 IH]; intros start; simpl.
  - by rewrite Nat.add_0_r.
  - by rewrite IH, Nat.add_succ_r.
Qed.

Lemma report_eq x y :
  (if (y =? 0)%nat
   then "Successfully sent all " +:+ pretty x
          +:+ " records individually to webhook"
   else "Sent " +:+ pretty x +:+ " records successfully, " +:+ pretty y
          +:+ " failed") = report x y.
Proof. by destruct y. Qed.

(** An individual delivery, from any world. *)
Lemma send_individually_run data url w :
  send_to_webhook env data url true w =
    let done :=
      attempts_from env (clock_reads w) (posts_sent w) 1 (length data) url data in
    (inr (true, report (tally true done) (tally false done)),
     World (clock_reads w + length data) (posts_sent w + length data)
           (trace w ++ done ≫= attempt_events url)).
Proof.
  unfold send_to_webhook, try_except.
  unfold mbind at 1, M_bind at 1. rewrite send_records_run. cbv zeta.
  rewrite !Nat.add_0_l.
  set (done := attempts_from _ _ _ _ _ _ _).
  rewrite <- (report_eq (tally true done) (tally false done)).
  by destruct (tally false done =? 0)%nat.
Qed.

(** A bulk delivery, from any world. *)
Lemma send_bulk_run data url w :
  send_to_webhook env data url false w =
    let payload := bulk_payload (clock env (clock_reads w)) data in
    (inr match failure_text (webhook env (posts_sent w) url payload) with
         | Some cause => (false, "Webhook error: " +:+ cause)
         | None => (true, "Successfully sent " +:+ pretty (length data)
                            +:+ " records in bulk to webhook")
         end,
     World (S (clock_reads w)) (S (posts_sent w))
           (trace w ++ [Post url payload 30])).
Proof.
  unfold send_to_webhook, try_except, mbind, M_bind, now_isoformat,
    requests_post, raise_for_status, raise, mret, M_ret, failure_text.
  simpl.
  destruct (webhook env _ _ _) as [resp|cause]; simpl; [|done].
  by destruct (http_error_msg resp).
Qed.

Lemma delivered_failure_text rep :
  delivered rep = true ↔ failure_text rep = None.
Proof.
  destruct rep as [resp|cause]; simpl; [|done].
  by destruct (http_error_msg resp).
Qed.




End Delivery.

(** ** Delivery: the claims *)

Section DeliveryClaims.

Context {record : Type}.
Variable env : @environment record.
Implicit Types (data : list record) (url : string).

(** C1: a bulk delivery of [N >= 0] records issues exactly one POST (and
    nothing else); its payload has [total_results] equal to [N] and [data]
    equal to the record list as given; when that POST is delivered the
    outcome is [(True, "Successfully sent <N> records in bulk to webhook")].
    The empty list is no exception: the statement holds for every list. *)
Theorem bulk_issues_one_post data url :
  let payload := bulk_payload (clock env 0) data in
  ∃ outcome,
    send_to_webhook env data url false boot =
      (inr outcome, World 1 1 [Post url payload 30])
    ∧ payload !! "total_results" = Some (JInt (length data))
    ∧ payload !! "data" = Some (JRecords data)
    ∧ (delivered (webhook env 0 url payload) = true →
       outcome = (true, "Successfully sent " +:+ pretty (length data)
                          +:+ " records in bulk to webhook")).
Proof.
  intros payload. rewrite send_bulk_run. cbv zeta. simpl.
  fold payload. eexists. split; [reflexivity|].
  split; [reflexivity|]. split; [reflexivity|].
  intros Hok. apply delivered_failure_text in Hok. by rewrite Hok.
Qed.




(** C7, as amended: the trace of an individual delivery is, record after
    record, the POST of that record followed by one pause of 100 ms when
    the POST was delivered, and by nothing when it was not. *)
Theorem pause_follows_each_delivered_post data url :
  ∃ outcome w,
    send_to_webhook env data url true boot = (inr outcome, w)
    ∧ trace w =
        attempts env data url ≫= λ a : gmap string jvalue * bool,
          Post url a.1 30 :: (if a.2 then [Sleep 100] else []).
Proof.
  rewrite send_individually_run. cbv zeta. simpl.
  fold (attempts env data url). by do 2 eexists.
Qed.

(** C9: the bulk payload built from a record list carries that list in its
    [data] field and the list's length in [total_results], so reading the
    records back from the payload that was posted gives the original list,
    record for record and in order. *)
Theorem bulk_payload_round_trip data url :
  ∃ outcome payload w,
    send_to_webhook env data url false boot = (outcome, w)
    ∧ posts (trace w) = [(url, payload, 30%N)]
    ∧ payload_records payload = Some data
    ∧ payload !! "total_results" = Some (JInt (length data))
    ∧ ∀ timestamp, payload_records (bulk_payload timestamp data) = Some data.
Proof.
  rewrite send_bulk_run. cbv zeta. simpl.
  do 3 eexists. split; [reflexivity|]. simpl. by repeat split.
Qed.

(** C10: in the individual loop the two counters always add up to the
    number of records processed: after any prefix [pre] of the records the
    loop has reached counters [s] and [f] with [s + f = length pre] (and goes
    on from there with the rest), and the counts [s] and [f] of the final
    message add up to the length of the list. *)
Theorem counters_add_up_to_records_processed data url :
  (∀ pre rest, data = pre ++ rest →
     ∃ s f w,
       send_records env url (length data) (enumerate pre 1) (0, 0) boot =
         (inr (s, f), w)
       ∧ s + f = length pre
       ∧ send_records env url (length data) (enumerate data 1) (0, 0) boot =
           send_records env url (length data)
             (enumerate rest (1 + length pre)) (s, f) w)
  ∧ ∃ s f w,
      send_to_webhook env data url true boot = (inr (true, report s f), w)
      ∧ s + f = length data.
Proof.
  split.
  - intros pre rest ->. rewrite enumerate_app, send_records_app.
    rewrite send_records_run. cbv zeta.
    do 3 eexists. split; [reflexivity|]. split; [|reflexivity].
    rewrite !Nat.add_0_l, tally_total. apply length_imap.
  - rewrite send_individually_run. cbv zeta.
    do 3 eexists. split; [reflexivity|].
    rewrite tally_total. apply length_imap.
Qed.

End DeliveryClaims.

(** ** The fetch *)

Section Fetch.

Context {record : Type}.
Variable env : @environment record.

Lemma append_items_run (items : list record) failure results
    (w : @world record) :
  append_items items failure results w =
    (match failure with
     | Some e => inl e
     | None => inr (results ++ items)
     end, w).
Proof.
  revert results. induction items as [|item items IH]; intros results; simpl.
  - destruct failure; [done|]. by rewrite app_nil_r.
  - rewrite IH. by rewrite <- app_assoc.
Qed.

(** The function unfolded: what it returns and what it leaves in the
    trace, by what the client does. *)
Lemma scrape_google_maps_run search_query location max_results options
    (w : @world record) :
  scrape_google_maps env search_query location max_results (Some options) w =
    let run_input := run_input_of search_query location max_results options in
    let called :=
      World (clock_reads w) (posts_sent w)
            (trace w ++ [ActorCall crawler run_input]) in
    let failed text := (inr (false, Cause text, None), called) in
    match actor_call env crawler run_input with
    | inl e => failed (str e)
    | inr None => failed "'NoneType' object is not subscriptable"
    | inr (Some run) =>
        match run !! "defaultDatasetId" with
        | None => failed "'defaultDatasetId'"
        | Some dataset_id =>
            let read :=
              World (clock_reads w) (posts_sent w)
                    (trace w ++ [ActorCall crawler run_input;
                                 DatasetRead dataset_id]) in
            match iterate_items env dataset_id with
            | (_, Some e) => (inr (false, Cause (str e), None), read)
            | (items, None) => (inr (true, Items items, Some run), read)
            end
        end
    end.
Proof.
  unfold scrape_google_maps, try_except, build_run_input, client_actor_call,
    subscript, mbind, M_bind, emit, raise, mret, M_ret, crawler.
  simpl.
  destruct (actor_call env _ _) as [e|[run|]]; simpl; [done| |done].
  destruct (run !! "defaultDatasetId") as [dataset_id|]; simpl; [|done].
  destruct (iterate_items env dataset_id) as [items failure].
  rewrite append_items_run. rewrite <- app_assoc. simpl.
  by destruct failure.
Qed.

(** Whatever happens afterwards, the function returns, and the first thing
    it did was to call the actor with the request document. *)
Lemma actor_call_comes_first search_query location max_results options :
  ∃ result later,
    scrape_google_maps env search_query location max_results (Some options)
      boot =
    (inr result,
     World 0 0
       (ActorCall crawler
          (run_input_of search_query location max_results options) :: later)).
Proof.
  rewrite scrape_google_maps_run. cbv zeta.
  destruct (actor_call env _ _) as [e|[run|]];
    [by do 2 eexists| |by do 2 eexists].
  destruct (run !! "defaultDatasetId") as [dataset_id|]; [|by do 2 eexists].
  destruct (iterate_items env dataset_id) as [items [e|]]; by do 2 eexists.
Qed.

(** C5, as amended: [scrape_google_maps] does not validate [max_results]:
    for every integer, inside the range 1..500 or not, its first act is the
    call of the remote actor, with that integer as
    [maxCrawledPlacesPerSearch] of the request document. *)
Theorem max_results_is_forwarded_unchecked search_query location
    (max_results : Z) options :
  let run_input := run_input_of search_query location max_results options in
  (∃ result later,
     scrape_google_maps env search_query location max_results (Some options)
       boot = (inr result, World 0 0 (ActorCall crawler run_input :: later)))
  ∧ run_input !! "maxCrawledPlacesPerSearch" = Some (PyInt max_results).
Proof.
  intros run_input. split; [apply actor_call_comes_first|reflexivity].
Qed.

(** C6, as amended: the fetch is all or nothing for the errors that the
    client raises.  Whatever is raised, and wherever (the actor call, the
    lookup of the run's dataset, the iteration of the dataset, also after
    items were yielded), the result is [(False, str(e), None)]: the cause,
    and no list of items.  A run whose dataset yields no item gives
    [(True, [], run)], which differs from every failure result.  There is
    no third kind of result.  A run object that the client returns is a
    success whatever else it holds, its [status] included: the result has
    all the items that its dataset yields. *)
Theorem fetch_fails_on_exceptions_only search_query location max_results options :
  let run_input := run_input_of search_query location max_results options in
  let fetch :=
    (scrape_google_maps env search_query location max_results (Some options)
       boot).1 in
  (∀ e, actor_call env crawler run_input = inl e →
        fetch = inr (false, Cause (str e), None))
  ∧ (∀ run dataset_id items e,
        actor_call env crawler run_input = inr (Some run) →
        run !! "defaultDatasetId" = Some dataset_id →
        iterate_items env dataset_id = (items, Some e) →
        fetch = inr (false, Cause (str e), None))
  ∧ (∀ run dataset_id,
        actor_call env crawler run_input = inr (Some run) →
        run !! "defaultDatasetId" = Some dataset_id →
        iterate_items env dataset_id = ([], None) →
        fetch = inr (true, Items [], Some run)
        ∧ ∀ text, fetch ≠ inr (false, Cause text, None))
  ∧ ((∃ text, fetch = inr (false, Cause text, None))
     ∨ (∃ items run dataset_id,
          fetch = inr (true, Items items, Some run)
          ∧ actor_call env crawler run_input = inr (Some run)
          ∧ run !! "defaultDatasetId" = Some dataset_id
          ∧ iterate_items env dataset_id = (items, None)))
  ∧ (∀ run dataset_id items,
        actor_call env crawler run_input = inr (Some run) →
        run !! "defaultDatasetId" = Some dataset_id →
        iterate_items env dataset_id = (items, None) →
        fetch = inr (true, Items items, Some run)).
Proof.
  intros run_input fetch. subst fetch.
  rewrite scrape_google_maps_run. cbv zeta. fold run_input.
  split; [|split; [|split; [|split]]].
  5: by intros run dataset_id items -> -> ->.
  - by intros e ->.
  - by intros run dataset_id items e -> -> ->.
  - by intros run dataset_id -> -> ->.
  - destruct (actor_call env _ _) as [e|[run|]]; simpl; [by eauto| |by eauto].
    destruct (run !! "defaultDatasetId") as [dataset_id|] eqn:Hid;
      [|by eauto].
    destruct (iterate_items env dataset_id) as [items [e|]] eqn:Hitems;
      simpl; [by eauto|].
    right. by exists items, run, dataset_id.
Qed.

(** C8: the request document that [scrape_google_maps] submits has, for
    every option set, [language = "en"] and [searchMatching = "all"]; each
    recognised option key that the option set lacks is in the document with
    its documented default (and one that it has, with the value given). *)
Theorem request_document_defaults search_query location max_results options :
  let run_input := run_input_of search_query location max_results options in
  (∃ result later,
     scrape_google_maps env search_query location max_results (Some options)
       boot = (inr result, World 0 0 (ActorCall crawler run_input :: later)))
  ∧ run_input !! "language" = Some (PyStr "en")
  ∧ run_input !! "searchMatching" = Some (PyStr "all")
  ∧ (∀ key default, (key, default) ∈ documented_defaults →
       options !! key = None → run_input !! key = Some default)
  ∧ (∀ key default value, (key, default) ∈ documented_defaults →
       options !! key = Some value → run_input !! key = Some value).
Proof.
  intros run_input. split.
  { apply actor_call_comes_first. }
  split; [reflexivity|]. split; [reflexivity|].
  unfold documented_defaults, run_input, run_input_of, get.
  split.
  - intros key default Hin Hnone.
    repeat (apply elem_of_cons in Hin as [[= -> ->]|Hin];
            [by rewrite Hnone|]).
    by apply elem_of_nil in Hin.
  - intros key default value Hin Hsome.
    repeat (apply elem_of_cons in Hin as [[= -> ->]|Hin];
            [by rewrite Hsome|]).
    by apply elem_of_nil in Hin.
Qed.

End Fetch.

(** ** The claims on the scenarios *)

(** C1 on the empty list: the one POST is sent all the same, with an empty
    [data] list, and the outcome is the success outcome for 0 records. *)
Lemma bulk_of_nothing_is_posted :
  send_to_webhook all_fine [] endpoint false boot =
    (inr (true, "Successfully sent 0 records in bulk to webhook"),
     World 1 1 [Post endpoint (bulk_payload "2024-05-01T12:00:00" []) 30])
  ∧ bulk_payload "2024-05-01T12:00:00" ([] : list dict) !! "data"
      = Some (JRecords []).
Proof.
  destruct (bulk_issues_one_post all_fine [] endpoint)
    as (outcome & Hrun & _ & Hdata & Hok).
  split; [|exact Hdata].
  rewrite Hrun, (Hok eq_refl). reflexivity.
Defined.

(** C3 on three records of which the second is rejected. *)
Example two_sent_one_failed :
  (send_to_webhook second_post_rejected [cafe; bakery; hotel] endpoint true
     boot).1 = inr (true, "Sent 2 records successfully, 1 failed").
Proof. reflexivity. Qed.

(** C2 and C3 on the empty list: no POST, and a success outcome. *)
Example individual_of_nothing :
  send_to_webhook all_fine [] endpoint true boot =
    (inr (true, "Successfully sent all 0 records individually to webhook"),
     boot).
Proof. reflexivity. Qed.



(** C5 as stated fails: 0 is outside 1..500, and the fetch with
    [max_results = 0] calls the actor, reads the dataset and succeeds. *)
Lemma zero_max_results_reaches_the_actor :
  ¬ (1 ≤ 0 ≤ 500)%Z
  ∧ scrape_google_maps one_item "cafes" "Dubai" 0 (Some ∅) boot =
      (inr (true, Items [cafe], Some finished_run),
       World 0 0 [ActorCall crawler (run_input_of "cafes" "Dubai" 0 ∅);
                  DatasetRead (PyStr "dataset-1")])
  ∧ run_input_of "cafes" "Dubai" 0 ∅ !! "maxCrawledPlacesPerSearch"
      = Some (PyInt 0).
Proof.
  split; [lia|]. split; [|reflexivity].
  rewrite scrape_google_maps_run. reflexivity.
Qed.

(** C6 as amended, on a run without items and on a dataset that breaks
    after two items: the first is a success with an empty list, the second
    a failure that carries the cause and none of the two items. *)
Lemma empty_run_and_broken_dataset :
  (scrape_google_maps all_fine "cafes" "Dubai" 50 (Some ∅) boot).1 =
    inr (true, Items [], Some finished_run)
  ∧ (scrape_google_maps dataset_breaks "cafes" "Dubai" 50 (Some ∅) boot).1 =
      inr (false, Cause "Dataset read timed out", None).
Proof.
  destruct (fetch_fails_on_exceptions_only all_fine "cafes" "Dubai" 50 ∅)
    as (_ & _ & Hempty & _).
  destruct (fetch_fails_on_exceptions_only dataset_breaks "cafes" "Dubai" 50 ∅)
    as (_ & Hbreak & _).
  split.
  - exact (proj1 (Hempty finished_run (PyStr "dataset-1")
                    eq_refl eq_refl eq_refl)).
  - exact (Hbreak finished_run (PyStr "dataset-1") [cafe; bakery]
             (Exception "Dataset read timed out") eq_refl eq_refl eq_refl).
Defined.

(** C6 as stated fails: a remote run that ended [FAILED] is an error of the
    remote execution, and its fetch is a success that carries the two items
    the run had stored before it failed. *)
Lemma failed_run_is_fetched_as_success :
  failed_run !! "status" = Some (PyStr "FAILED")
  ∧ actor_call run_failed crawler (run_input_of "cafes" "Dubai" 50 ∅) =
      inr (Some failed_run)
  ∧ scrape_google_maps run_failed "cafes" "Dubai" 50 (Some ∅) boot =
      (inr (true, Items [cafe; bakery], Some failed_run),
       World 0 0 [ActorCall crawler (run_input_of "cafes" "Dubai" 50 ∅);
                  DatasetRead (PyStr "dataset-1")]).
Proof.
  split; [reflexivity|]. split; [reflexivity|].
  rewrite scrape_google_maps_run. reflexivity.
Qed.

(** C7 as stated fails: when the first of two POSTs gets no response, the
    second follows it with no pause in between. *)
Lemma no_pause_after_a_failed_post :
  trace (send_to_webhook first_post_refused [cafe; bakery] endpoint true
           boot).2 =
    [Post endpoint (individual_payload "2024-05-01T12:00:00" 1 2 cafe) 30;
     Post endpoint (individual_payload "2024-05-01T12:00:01" 2 2 bakery) 30;
     Sleep 100]
  ∧ posts_are_spaced
      (trace (send_to_webhook first_post_refused [cafe; bakery] endpoint true
                boot).2) = false.
Proof. split; reflexivity. Qed.

(** C8 on an empty option set and on one that sets [maxReviews]. *)
Lemma defaults_of_the_empty_option_set :
  run_input_of "cafes" "Dubai" 50 ∅ !! "scrapeContacts" = Some (PyBool false)
  ∧ run_input_of "cafes" "Dubai" 50 {[ "maxReviews" := PyInt 7 ]}
      !! "maxReviews" = Some (PyInt 7).
Proof.
  destruct (request_document_defaults all_fine "cafes" "Dubai" 50 ∅)
    as (_ & _ & _ & Habsent & _).
  destruct (request_document_defaults all_fine "cafes" "Dubai" 50
              {[ "maxReviews" := PyInt 7 ]})
    as (_ & _ & _ & _ & Hgiven).
  split.
  - apply Habsent; [|reflexivity].
    unfold documented_defaults. do 2 apply list_elem_of_further.
    apply list_elem_of_here.
  - apply (Hgiven "maxReviews" (PyInt 0)); [|reflexivity].
    unfold documented_defaults. do 4 apply list_elem_of_further.
    apply list_elem_of_here.
Defined.

(** * Further properties of the code *)

(** ** Delivery *)

Section DeliveryFurther.

Context {record : Type}.
Variable env : @environment record.
Implicit Types (data : list record) (url : string) (w : @world record).


Lemma pause_total_app (tr1 tr2 : list (@event record)) :
  pause_total (tr1 ++ tr2) = (pause_total tr1 + pause_total tr2)%N.
Proof.
  induction tr1 as [|ev tr1 IH]; [done|].
  simpl. rewrite IH. destruct ev; lia.
Qed.

Lemma pause_total_attempts url
    (tried : list (gmap string (@jvalue record) * bool)) :
  pause_total (tried ≫= attempt_events url) =
    (100 * N.of_nat (tally true tried))%N.
Proof.
  induction tried as [|[p b] tried IH]; [done|].
  rewrite bind_cons, pause_total_app, IH, tally_cons.
  destruct b; simpl; lia.
Qed.


(** X2: a delivery pauses for 100 ms per delivered record and no longer: in
    individual mode the pauses of the trace add up to 100 ms times the
    number of delivered records; in bulk mode there is no pause. *)
Theorem pause_is_100ms_per_delivered_record data url :
  pause_total (trace (send_to_webhook env data url true boot).2) =
    (100 * N.of_nat (tally true (attempts env data url)))%N
  ∧ pause_total (trace (send_to_webhook env data url false boot).2) = 0%N.
Proof.
  rewrite send_individually_run, send_bulk_run. cbv zeta. simpl.
  fold (attempts env data url).
  split; [apply pause_total_attempts|done].
Qed.


End DeliveryFurther.

(** ** The fetch *)

Section FetchFurther.

Context {record : Type}.
Variable env : @environment record.
Implicit Types (w : @world record) (options : gmap string pyval).

(** X4: called without an option set ([additional_options] left at its
    default [None]), [scrape_google_maps] fails on the first [.get] and
    returns the failure triple with the text of the [AttributeError]; it
    calls nothing: the world is as it was. *)
Theorem fetch_without_options_calls_nothing search_query location
    max_results w :
  scrape_google_maps env search_query location max_results None w =
    (inr (false, Cause "'NoneType' object has no attribute 'get'", None), w).
Proof. reflexivity. Qed.

(** X5: when the actor call returns no run object, or a run object without
    the key [defaultDatasetId], the fetch is a failure that carries the text
    of the [TypeError] or of the [KeyError]; the actor was called and no
    dataset is read. *)
Theorem run_without_dataset_is_a_failure search_query location max_results
    options w :
  let run_input := run_input_of search_query location max_results options in
  let called :=
    World (clock_reads w) (posts_sent w)
          (trace w ++ [ActorCall crawler run_input]) in
  (actor_call env crawler run_input = inr None →
     scrape_google_maps env search_query location max_results (Some options) w
       = (inr (false, Cause "'NoneType' object is not subscriptable", None),
          called))
  ∧ (∀ run, actor_call env crawler run_input = inr (Some run) →
       run !! "defaultDatasetId" = None →
       scrape_google_maps env search_query location max_results (Some options)
         w = (inr (false, Cause "'defaultDatasetId'", None), called)).
Proof.
  intros run_input called. rewrite scrape_google_maps_run. cbv zeta.
  fold run_input. split.
  - by intros ->.
  - by intros run -> ->.
Qed.

(** X6: a fetch with an option set calls the actor exactly once, first, and
    reads at most one dataset, after it; a successful fetch has read one.
    It sends no POST, does not sleep and does not read the clock. *)
Theorem fetch_calls_the_actor_once search_query location max_results
    options w :
  ∃ result later,
    scrape_google_maps env search_query location max_results (Some options) w
      = (inr result,
         World (clock_reads w) (posts_sent w)
               (trace w ++
                ActorCall crawler
                  (run_input_of search_query location max_results options)
                :: later))
    ∧ (later = [] ∨ ∃ dataset_id, later = [DatasetRead dataset_id])
    ∧ (result.1.1 = true → ∃ dataset_id, later = [DatasetRead dataset_id]).
Proof.
  rewrite scrape_google_maps_run. cbv zeta.
  destruct (actor_call env _ _) as [e|[run|]].
  - do 2 eexists. split; [reflexivity|]. split; [by left|done].
  - destruct (run !! "defaultDatasetId") as [dataset_id|].
    + destruct (iterate_items env dataset_id) as [items [e|]];
        do 2 eexists; (split; [reflexivity|]); split; eauto.
    + do 2 eexists. split; [reflexivity|]. split; [by left|done].
  - do 2 eexists. split; [reflexivity|]. split; [by left|done].
Qed.

(** X7: the request document depends on the option set through the seven
    recognised keys only: two option sets that agree on them give the same
    document, so a key that is not recognised is not forwarded and cannot
    replace a fixed field. *)
Theorem unrecognised_options_are_ignored search_query location max_results
    options options' :
  (∀ key default, (key, default) ∈ documented_defaults →
     options !! key = options' !! key) →
  run_input_of search_query location max_results options =
    run_input_of search_query location max_results options'.
Proof.
  intros Hsame. unfold run_input_of, get.
  assert (∀ key default, In (key, default) documented_defaults →
            options !! key = options' !! key) as Hin.
  { intros key default Hk. apply (Hsame key default).
    by apply list_elem_of_In. }
  unfold documented_defaults in Hin.
  rewrite (Hin "skipClosedPlaces" (PyBool false)) by (simpl; tauto).
  rewrite (Hin "scrapePlaceDetailPage" (PyBool false)) by (simpl; tauto).
  rewrite (Hin "scrapeContacts" (PyBool false)) by (simpl; tauto).
  rewrite (Hin "includeWebResults" (PyBool false)) by (simpl; tauto).
  rewrite (Hin "maxReviews" (PyInt 0)) by (simpl; tauto).
  rewrite (Hin "maxImages" (PyInt 0)) by (simpl; tauto).
  rewrite (Hin "maximumLeadsEnrichmentRecords" (PyInt 0)) by (simpl; tauto).
  reflexivity.
Qed.

End FetchFurther.

(** ** The search form *)

Section PageFurther.

Context {record : Type}.
Variable env : @environment record.
Implicit Types (w : @world record) (st : @session_state record) (f : form).

(** The two results of a fetch with an option set, and the world it
    leaves. *)
Lemma scrape_google_maps_shapes search_query location max_results options w :
  ∃ later,
    let w1 :=
      World (clock_reads w) (posts_sent w)
        (trace w ++
         ActorCall crawler
           (run_input_of search_query location max_results options)
         :: later) in
    (∃ items run,
       scrape_google_maps env search_query location max_results
         (Some options) w = (inr (true, Items items, Some run), w1))
    ∨ (∃ text,
         scrape_google_maps env search_query location max_results
           (Some options) w = (inr (false, Cause text, None), w1)).
Proof.
  rewrite scrape_google_maps_run. cbv zeta.
  destruct (actor_call env _ _) as [e|[run|]]; [exists []; eauto| |exists []; eauto].
  destruct (run !! "defaultDatasetId") as [dataset_id|]; [|exists []; eauto].
  exists [DatasetRead dataset_id].
  destruct (iterate_items env dataset_id) as [items [e|]]; cbv zeta; eauto.
Qed.

(** The handler on a complete form in a session with no search in
    progress, by the result of the fetch. *)
Lemma handle_submit_fetched f st w fetched w1 :
  complete f = true →
  scraping_in_progress st = false →
  scrape_google_maps env (search_query f) (location f) (max_results f)
    (Some (additional_options_of f)) w = (inr fetched, w1) →
  handle_submit env f st w =
    match fetched with
    | (true, Items results, _) =>
        let shown :=
          [StStatus "Scraping in progress...";
           StWrite "Connecting to Apify...";
           StatusUpdate ("Scraped " +:+ pretty (length results)
                           +:+ " businesses!") "complete";
           StToast ("Found " +:+ pretty (length results)
                      +:+ " businesses!") "🎉"] in
        if nonempty (webhook_url f) then
          match send_to_webhook env results (webhook_url f) false w1 with
          | (inr (true, webhook_msg), w2) =>
              (inr (SessionState (Some results) true,
                    shown ++ [StToast ("📡 " +:+ webhook_msg) "✅"]), w2)
          | (inr (false, webhook_msg), w2) =>
              (inr (SessionState (Some results) true,
                    shown ++ [StToast ("❌ " +:+ webhook_msg) "⚠️"]), w2)
          | (inl e, w2) => (inl e, w2)
          end
        else (inr (SessionState (Some results) true, shown), w1)
    | (false, Cause text, _) =>
        (inr (SessionState None false,
              [StStatus "Scraping in progress...";
               StWrite "Connecting to Apify...";
               StatusUpdate ("❌ Scraping failed: " +:+ text) "error";
               StToast ("Scraping failed: " +:+ text) "⚠️"]), w1)
    | _ =>
        (inl (Exception "scrape_google_maps returned another pairing"), w1)
    end.
Proof.
  intros Hcomplete Hidle Hfetch. unfold handle_submit.
  unfold complete in Hcomplete. rewrite Hcomplete, Hidle.
  cbv beta iota zeta delta [negb].
  unfold mbind at 1, M_bind at 1. rewrite Hfetch.
  destruct fetched as [[[] [results|text]] run_info]; try reflexivity.
  cbv beta iota zeta. destruct (nonempty (webhook_url f)); [|reflexivity].
  unfold mbind, M_bind.
  destruct (send_to_webhook env results (webhook_url f) false w1)
    as [[e|[[] msg]] w2]; reflexivity.
Qed.

(** X9: a form that is not complete (not submitted, or submitted with an
    empty search query or an empty location) starts nothing: the session
    state and the world are as they were, no call was made, and a submitted
    form gets one error line per empty field. *)
Theorem incomplete_form_fetches_nothing f st w :
  complete f = false →
  handle_submit env f st w =
    (inr (st,
          if submit_button f then
            (if nonempty (search_query f) then []
             else [StError "❌ Please enter a search query"])
            ++ (if nonempty (location f) then []
                else [StError "❌ Please enter a location"])
          else []), w).
Proof.
  unfold complete, handle_submit. intros ->.
  by destruct (submit_button f), (nonempty (search_query f)),
       (nonempty (location f)).
Qed.

(** X10: while the session has [scraping_in_progress] set, a complete form
    is ignored: no call, no message, the same session state. *)
Theorem submission_during_a_search_is_ignored f st w :
  scraping_in_progress st = true →
  complete f = true →
  handle_submit env f st w = (inr (st, []), w).
Proof.
  unfold complete, handle_submit. by intros -> ->.
Qed.

(** X11: a search that succeeds stores its results and leaves
    [scraping_in_progress] set: the branch of success never resets it.  So
    every complete form submitted later in the same session is ignored. *)
Theorem successful_search_locks_the_form f st w results run w1 :
  complete f = true →
  scraping_in_progress st = false →
  scrape_google_maps env (search_query f) (location f) (max_results f)
    (Some (additional_options_of f)) w = (inr (true, Items results, run), w1) →
  ∃ shown w2,
    handle_submit env f st w =
      (inr (SessionState (Some results) true, shown), w2)
    ∧ ∀ f', complete f' = true →
        handle_submit env f' (SessionState (Some results) true) w2 =
          (inr (SessionState (Some results) true, []), w2).
Proof.
  intros Hcomplete Hidle Hfetch.
  rewrite (handle_submit_fetched _ _ _ _ _ Hcomplete Hidle Hfetch).
  cbv beta iota zeta.
  assert (∀ w2 f', complete f' = true →
            handle_submit env f' (SessionState (Some results) true) w2 =
              (inr (SessionState (Some results) true, []), w2)) as Hlocked.
  { intros w2 f' Hf'. unfold complete in Hf'. unfold handle_submit.
    by rewrite Hf'. }
  destruct (nonempty (webhook_url f)); [|by eauto].
  rewrite send_bulk_run. cbv zeta.
  destruct (failure_text _); eauto.
Qed.

(** X12: a search that fails shows the cause, leaves the session with no
    results (those of an earlier search are gone) and with
    [scraping_in_progress] reset, and sends nothing to the webhook: the
    world is the one the fetch left. *)
Theorem failed_search_clears_results_and_unlocks f st w text run w1 :
  complete f = true →
  scraping_in_progress st = false →
  scrape_google_maps env (search_query f) (location f) (max_results f)
    (Some (additional_options_of f)) w = (inr (false, Cause text, run), w1) →
  handle_submit env f st w =
    (inr (SessionState None false,
          [StStatus "Scraping in progress...";
           StWrite "Connecting to Apify...";
           StatusUpdate ("❌ Scraping failed: " +:+ text) "error";
           StToast ("Scraping failed: " +:+ text) "⚠️"]), w1).
Proof.
  intros Hcomplete Hidle Hfetch.
  by rewrite (handle_submit_fetched _ _ _ _ _ Hcomplete Hidle Hfetch).
Qed.

(** X13: after a search that succeeds, the handler forwards the results
    to the webhook of the sidebar, if one is given, as one bulk POST of
    exactly the fetched list (also when the list is empty, in which case
    the page shows no table); with no webhook in the sidebar nothing is
    posted. *)
Theorem search_forwards_results_in_bulk f st w results run w1 :
  complete f = true →
  scraping_in_progress st = false →
  scrape_google_maps env (search_query f) (location f) (max_results f)
    (Some (additional_options_of f)) w = (inr (true, Items results, run), w1) →
  ∃ shown w2,
    handle_submit env f st w =
      (inr (SessionState (Some results) true, shown), w2)
    ∧ trace w2 =
        trace w1 ++
        (if nonempty (webhook_url f)
         then [Post (webhook_url f)
                 (bulk_payload (clock env (clock_reads w1)) results) 30]
         else [])
    ∧ (results = [] →
       results_shown (SessionState (Some results) true) = false).
Proof.
  intros Hcomplete Hidle Hfetch.
  rewrite (handle_submit_fetched _ _ _ _ _ Hcomplete Hidle Hfetch).
  cbv beta iota zeta.
  destruct (nonempty (webhook_url f)).
  - rewrite send_bulk_run. cbv zeta.
    destruct (failure_text _); do 2 eexists;
      (split; [reflexivity|]); (split; [reflexivity|]); by intros ->.
  - do 2 eexists. split; [reflexivity|].
    split; [by rewrite app_nil_r|]. by intros ->.
Qed.

(** X14: the request document of a search from the form carries the
    values of the widgets: the query as the one search string, the
    location, the result cap and each of the seven options, none of them at
    a default of [scrape_google_maps]. *)
Theorem form_values_reach_the_actor f st w :
  complete f = true →
  scraping_in_progress st = false →
  let run_input :=
    run_input_of (search_query f) (location f) (max_results f)
      (additional_options_of f) in
  (∃ outcome w2 later,
     handle_submit env f st w = (outcome, w2)
     ∧ trace w2 = trace w ++ ActorCall crawler run_input :: later)
  ∧ run_input !! "searchStringsArray" = Some (PyList [search_query f])
  ∧ run_input !! "locationQuery" = Some (PyStr (location f))
  ∧ run_input !! "maxCrawledPlacesPerSearch" = Some (PyInt (max_results f))
  ∧ run_input !! "skipClosedPlaces" = Some (PyBool (skip_closed f))
  ∧ run_input !! "scrapePlaceDetailPage" = Some (PyBool (scrape_details f))
  ∧ run_input !! "scrapeContacts" = Some (PyBool (scrape_contacts f))
  ∧ run_input !! "includeWebResults" = Some (PyBool (include_web_results f))
  ∧ run_input !! "maxReviews" = Some (PyInt (max_reviews f))
  ∧ run_input !! "maxImages" = Some (PyInt (max_images f))
  ∧ run_input !! "maximumLeadsEnrichmentRecords" = Some (PyInt (max_leads f)).
Proof.
  intros Hcomplete Hidle run_input. split; [|by repeat split].
  destruct (scrape_google_maps_shapes (search_query f) (location f)
              (max_results f) (additional_options_of f) w)
    as (later & [(items & run & Hfetch)|(text & Hfetch)]).
  - rewrite (handle_submit_fetched _ _ _ _ _ Hcomplete Hidle Hfetch).
    cbv beta iota zeta.
    destruct (nonempty (webhook_url f)); [|by do 3 eexists].
    rewrite send_bulk_run. cbv zeta.
    destruct (failure_text _); do 3 eexists;
      (split; [reflexivity|]); cbn [trace]; by rewrite <- app_assoc.
  - rewrite (handle_submit_fetched _ _ _ _ _ Hcomplete Hidle Hfetch).
    by do 3 eexists.
Qed.


(** ** The Webhook tab *)




End PageFurther.

(** ** The token in the sidebar *)

Lemma append_cons c a b : String c a +:+ b = String c (a +:+ b).
Proof. reflexivity. Qed.

Lemma append_assoc a b c : (a +:+ b) +:+ c = a +:+ (b +:+ c).
Proof.
  induction a as [|x a IH]; [done|]. by rewrite !append_cons, IH.
Qed.

Lemma append_empty s : s +:+ "" = s.
Proof.
  induction s as [|x s IH]; [done|]. by rewrite append_cons, IH.
Qed.

Lemma len_app a b : len (a +:+ b) = len a + len b.
Proof.
  induction a as [|c a IH]; [done|].
  rewrite append_cons. simpl. rewrite IH. lia.
Qed.

Lemma len_drop_continuations s : len (drop_continuations s) = len s.
Proof.
  induction s as [|c s IH]; [done|].
  simpl. destruct (is_continuation c) eqn:Hc; [done|]. simpl. by rewrite Hc.
Qed.

Lemma drop_continuations_head c s' s :
  drop_continuations s = String c s' → is_continuation c = false.
Proof.
  induction s as [|d s IH]; [done|].
  simpl. destruct (is_continuation d) eqn:Hd; [done|].
  by intros [= <- _].
Qed.

Lemma drop_continuations_suffix s : ∃ p, s = p +:+ drop_continuations s.
Proof.
  induction s as [|c s [p IH]]; [by exists ""|].
  simpl. destruct (is_continuation c).
  - exists (String c p). rewrite append_cons. by rewrite <- IH.
  - by exists "".
Qed.

Lemma drop_chars_suffix n s : ∃ p, s = p +:+ drop_chars n s.
Proof.
  revert s. induction n as [|n IH]; intros s; [by exists ""|].
  simpl. destruct (drop_continuations_suffix s) as [p Hp].
  destruct (drop_continuations s) as [|c s'] eqn:Hs.
  - exists s. by rewrite append_empty.
  - destruct (drop_continuations_suffix s') as [q Hq].
    destruct (IH (drop_continuations s')) as [r Hr].
    exists (p +:+ String c (q +:+ r)).
    by rewrite append_assoc, append_cons, append_assoc, <- Hr, <- Hq.
Qed.

Lemma len_drop_chars n s : len (drop_chars n s) = len s - n.
Proof.
  revert s. induction n as [|n IH]; intros s; simpl; [lia|].
  rewrite <- (len_drop_continuations s).
  destruct (drop_continuations s) as [|c s'] eqn:Hs; [done|].
  rewrite IH, len_drop_continuations. simpl.
  by rewrite (drop_continuations_head _ _ _ Hs).
Qed.

(** X18: the sidebar shows of the token twenty stars and four more
    characters: four stars for a token of at most four characters, which
    stays hidden altogether, and the last four characters of a longer one,
    whose other characters are not shown.  Characters are counted as Python
    counts them, not bytes. *)
Theorem masked_token_shows_the_last_four_only (API_TOKEN : string) :
  ∃ tail,
    masked_token API_TOKEN = "********************" +:+ tail
    ∧ len tail = 4
    ∧ ((len API_TOKEN ≤ 4)%nat → tail = "****")
    ∧ ((4 < len API_TOKEN)%nat →
       ∃ hidden,
         API_TOKEN = hidden +:+ tail
         ∧ len hidden = len API_TOKEN - 4).
Proof.
  unfold masked_token.
  destruct (4 <? len API_TOKEN)%nat eqn:Hlen.
  - apply Nat.ltb_lt in Hlen. exists (last_chars 4 API_TOKEN).
    split; [reflexivity|]. unfold last_chars.
    assert (len (drop_chars (len API_TOKEN - 4) API_TOKEN) = 4) as Htail
      by (rewrite len_drop_chars; lia).
    split; [done|]. split; [lia|]. intros _.
    destruct (drop_chars_suffix (len API_TOKEN - 4) API_TOKEN)
      as [hidden Hhidden].
    exists hidden. split; [done|].
    apply (f_equal len) in Hhidden. rewrite len_app, Htail in Hhidden. lia.
  - apply Nat.ltb_ge in Hlen. exists "****".
    split; [reflexivity|]. split; [reflexivity|]. split; [done|]. lia.
Qed.

(** The masked token of an ASCII token, and of two tokens with characters
    of two bytes: three characters are at most four, and the last four
    characters of five are four characters, of five bytes here. *)
Example masked_ascii_token :
  masked_token "apify_api_XyZ12345" = "********************2345".
Proof. reflexivity. Qed.

Example masked_short_token :
  len "ééé" = 3 ∧ masked_token "ééé" = "************************".
Proof. split; reflexivity. Qed.

Example masked_accented_token :
  len "abcdé" = 5 ∧ masked_token "abcdé" = "********************bcdé".
Proof. split; reflexivity. Qed.

(** ** The further properties on the scenarios *)


(** X7 on an option set that tries to set the language. *)
Lemma language_is_not_an_option :
  run_input_of "cafes" "Dubai" 50
    {[ "language" := PyStr "fr"; "maxReviews" := PyInt 7 ]} =
  run_input_of "cafes" "Dubai" 50 {[ "maxReviews" := PyInt 7 ]}.
Proof.
  apply unrecognised_options_are_ignored.
  intros key default Hin. unfold documented_defaults in Hin.
  repeat (apply elem_of_cons in Hin as [[= -> ->]|Hin]; [reflexivity|]).
  by apply elem_of_nil in Hin.
Defined.

(** X9 on a form without a location. *)
Lemma no_location_no_search :
  handle_submit all_fine cafes_nowhere new_session boot =
    (inr (new_session, [StError "❌ Please enter a location"]), boot).
Proof.
  exact (incomplete_form_fetches_nothing all_fine cafes_nowhere new_session
           boot eq_refl).
Defined.

(** X10 on a session with a search in progress. *)
Lemma second_click_is_ignored :
  handle_submit all_fine cafes_in_dubai (SessionState None true) boot =
    (inr (SessionState None true, []), boot).
Proof.
  exact (submission_during_a_search_is_ignored all_fine cafes_in_dubai
           (SessionState None true) boot eq_refl eq_refl).
Defined.

(** X11 on a search that finds one business: the next search of the same
    session is ignored. *)
Lemma one_search_per_session :
  ∃ shown w2,
    handle_submit one_item cafes_no_webhook new_session boot =
      (inr (SessionState (Some [cafe]) true, shown), w2)
    ∧ handle_submit one_item cafes_in_dubai (SessionState (Some [cafe]) true)
        w2 = (inr (SessionState (Some [cafe]) true, []), w2).
Proof.
  destruct (successful_search_locks_the_form one_item cafes_no_webhook
              new_session boot [cafe] (Some finished_run) _
              eq_refl eq_refl eq_refl) as (shown & w2 & Hfirst & Hnext).
  exists shown, w2. split; [exact Hfirst|].
  exact (Hnext cafes_in_dubai eq_refl).
Defined.

(** X12 on a client whose actor call raises, in a session that holds the
    results of an earlier search. *)
Lemma failed_search_drops_old_results :
  (handle_submit actor_fails cafes_in_dubai (SessionState (Some [bakery]) false)
     boot).1 =
    inr (SessionState None false,
         [StStatus "Scraping in progress...";
          StWrite "Connecting to Apify...";
          StatusUpdate ("❌ Scraping failed: User was not found or "
                          +:+ "authentication token is not valid") "error";
          StToast ("Scraping failed: User was not found or "
                     +:+ "authentication token is not valid") "⚠️"]).
Proof.
  rewrite (failed_search_clears_results_and_unlocks actor_fails cafes_in_dubai
             (SessionState (Some [bakery]) false) boot _ None _
             eq_refl eq_refl eq_refl).
  reflexivity.
Defined.

(** X13 on a search that finds nothing: the empty list is posted to the
    webhook of the sidebar. *)
Lemma nothing_found_is_posted_too :
  ∃ shown w2,
    handle_submit all_fine cafes_in_dubai new_session boot =
      (inr (SessionState (Some []) true, shown), w2)
    ∧ trace w2 =
        [ActorCall crawler
           (run_input_of "cafes" "Dubai" 50
              (additional_options_of cafes_in_dubai));
         DatasetRead (PyStr "dataset-1");
         Post endpoint (bulk_payload "2024-05-01T12:00:00" []) 30]
    ∧ results_shown (SessionState (Some ([] : list dict)) true) = false.
Proof.
  destruct (search_forwards_results_in_bulk all_fine cafes_in_dubai
              new_session boot [] (Some finished_run) _
              eq_refl eq_refl eq_refl) as (shown & w2 & Hrun & Htrace & Hnone).
  exists shown, w2. split; [exact Hrun|]. split; [exact Htrace|].
  exact (Hnone eq_refl).
Defined.

(** X14 on the filled-in form. *)
Lemma form_of_the_scenario_reaches_the_actor :
  run_input_of "cafes" "Dubai" 50 (additional_options_of cafes_in_dubai)
    !! "maxReviews" = Some (PyInt 5)
  ∧ run_input_of "cafes" "Dubai" 50 (additional_options_of cafes_in_dubai)
      !! "scrapeContacts" = Some (PyBool true).
Proof.
  destruct (form_values_reach_the_actor all_fine cafes_in_dubai new_session
              boot eq_refl eq_refl)
    as (_ & _ & _ & _ & _ & _ & Hcontacts & _ & Hreviews & _).
  split; [exact Hreviews|exact Hcontacts].
Defined.

(** ** The preview of the payload *)

Section Preview.

Context {record : Type}.
Variable env : @environment record.

(** X19: the preview is the payload that the send button would post, for
    the same reading of the clock: in individual mode the payload of the
    first record (when there is a record), in bulk mode the bulk payload
    when there are at most two records. *)
Theorem preview_is_what_is_sent timestamp (results : list record) :
  (∀ r rest, results = r :: rest →
     preview_payload timestamp results true =
       previewed <$> individual_payload timestamp 1 (length results) r)
  ∧ ((length results ≤ 2)%nat →
     preview_payload timestamp results false =
       previewed <$> bulk_payload timestamp results).
Proof.
  split.
  - intros r rest ->. reflexivity.
  - intros Hlen. unfold preview_payload. simpl negb. cbv iota.
    replace (2 <? length results)%nat with false
      by (symmetry; apply Nat.ltb_ge; lia).
    reflexivity.
Qed.

(** X20: the bulk preview of more than two records shows the first two
    and the string ["..."], while its [total_results] is the number of all
    records. *)
Theorem preview_shows_two_records_at_most timestamp (results : list record)
    r1 r2 r3 rest :
  results = r1 :: r2 :: r3 :: rest →
  preview_payload timestamp results false !! "data" =
    Some (PvList [inl r1; inl r2; inr "..."])
  ∧ preview_payload timestamp results false !! "total_results" =
      Some (PvInt (3 + length rest)).
Proof. by intros ->. Qed.

End Preview.

(** X19 and X20 on the businesses of the scenarios. *)
Lemma preview_of_two_businesses :
  preview_payload "2024-05-01T12:00:00" [cafe; bakery] false =
    previewed <$> bulk_payload "2024-05-01T12:00:00" [cafe; bakery].
Proof.
  destruct (preview_is_what_is_sent "2024-05-01T12:00:00" [cafe; bakery])
    as [_ Hbulk].
  apply Hbulk. simpl. lia.
Defined.

Lemma preview_of_three_businesses :
  preview_payload "2024-05-01T12:00:00" [cafe; bakery; hotel] false !! "data"
    = Some (PvList [inl cafe; inl bakery; inr "..."]).
Proof.
  exact (proj1 (preview_shows_two_records_at_most "2024-05-01T12:00:00"
                  [cafe; bakery; hotel] cafe bakery hotel [] eq_refl)).
Defined.
